(** * Local Embeddings Service ([embeddings_service/app.py])

    A shallow embedding of the FastAPI wrapper around a sentence-embedding
    model: the module-level start-up code, the three route handlers and the
    request class, followed by the properties of the service contract.

    Calls that leave the module ([os.getenv], the import of the model
    library, [SentenceTransformer(...)], [model.encode(...)]) are events of
    a small free monad; a [World] answers them, and may answer the same call
    differently each time it is made. *)

From Stdlib Require Import List String Ascii ZArith NArith Bool Lia.
From ExtLib Require Import Structures.Monad.
Import ListNotations.
Import MonadNotation.

Local Open Scope monad_scope.
Local Open Scope list_scope.

(** ** Python strings *)

(** A Python [str] is a sequence of Unicode code points. *)
Definition codepoint := N.
Definition str := list codepoint.

(** String literals of the source. *)
Definition lit (s : string) : str := map N_of_ascii (list_ascii_of_string s).

(** [str.isspace] on one code point: the characters [str.strip()] removes
    when called without argument. *)
Definition isspace (c : codepoint) : bool :=
  (((9 <=? c) && (c <=? 13)) || ((28 <=? c) && (c <=? 32))
   || (c =? 133) || (c =? 160) || (c =? 5760)
   || ((8192 <=? c) && (c <=? 8202))
   || (c =? 8232) || (c =? 8233) || (c =? 8239) || (c =? 8287)
   || (c =? 12288))%N.

Fixpoint lstrip (s : str) : str :=
  match s with
  | [] => []
  | c :: s' => if isspace c then lstrip s' else s
  end.

Definition rstrip (s : str) : str := rev (lstrip (rev s)).

Definition strip (s : str) : str := rstrip (lstrip s).

(** Truth value of a sequence: non-empty. *)
Definition truthy {A : Type} (l : list A) : bool :=
  match l with
  | [] => false
  | _ :: _ => true
  end.

(** The values a request's [input] list may hold at run time. *)
Inductive pyobj : Type :=
| py_str (s : str)
| py_int (n : Z)
| py_None.

(** [isinstance(t, str) and t.strip()], as the condition of the
    comprehension: for a [str] it is the truth value of [t.strip()]; for
    anything else [isinstance] is false and [t.strip()] is not evaluated. *)
Definition keeps (t : pyobj) : bool :=
  match t with
  | py_str s => truthy (strip s)
  | _ => false
  end.

(** ** Exceptions *)

(** A Python [Exception], what [except Exception] catches; [exc_str] is
    [str(e)]. Exits of the interpreter ([KeyboardInterrupt], [SystemExit]),
    which are no [Exception], are not failures of a call and have no place
    here. *)
Record Exception : Type := { exc_str : str }.

Record RuntimeError : Type := { runtime_message : str }.

Record HTTPException : Type := { status_code : Z; detail : str }.

(** Outcome of a call into a library: it returns or it raises. *)
Inductive raises (A : Type) : Type :=
| Returned (a : A)
| Raised (e : Exception).

Arguments Returned {A} a.
Arguments Raised {A} e.

(** Outcome of a route handler: a JSON body or an [HTTPException]. *)
Inductive reply (A : Type) : Type :=
| Responds (a : A)
| Fails (e : HTTPException).

Arguments Responds {A} a.
Arguments Fails {A} e.

Section Service.

(** Numbers held by an embedding vector, and the loaded model object. *)
Context {number : Type} {SentenceTransformer : Type}.

(** One row of the array [encode] returns; [tolist] is [v.tolist()]. *)
Record ndarray : Type := { tolist : list number }.

(** ** Calls that leave the module *)

Inductive Call : Type -> Type :=
| import_sentence_transformers : Call (raises unit)
| getenv (key : str) : Call (option str)
| load_model (name : str) : Call (raises SentenceTransformer)
| encode (m : SentenceTransformer) (sentences : list pyobj)
         (normalize_embeddings : option bool) : Call (raises (list ndarray)).

Inductive Prog (A : Type) : Type :=
| Ret (a : A)
| Do {X : Type} (c : Call X) (k : X -> Prog A).

Arguments Ret {A} a.
Arguments Do {A X} c k.

Fixpoint Prog_bind {A B : Type} (p : Prog A) (f : A -> Prog B) : Prog B :=
  match p with
  | Ret a => f a
  | Do c k => Do c (fun x => Prog_bind (k x) f)
  end.

#[local] Instance Monad_Prog : Monad Prog :=
  {| ret := @Ret; bind := @Prog_bind |}.

Definition call {X : Type} (c : Call X) : Prog X := Do c Ret.

(** ** Running a program *)

(** The world answers the [n]-th call of a run. *)
Definition World : Type := forall X : Type, nat -> Call X -> X.

Inductive Event : Type :=
| Called {X : Type} (c : Call X) (answer : X).

Fixpoint run_from {A : Type} (w : World) (n : nat) (p : Prog A)
  : list Event * A :=
  match p with
  | Ret a => ([], a)
  | Do c k =>
      let x := w _ n c in
      let (tr, a) := run_from w (S n) (k x) in
      (Called c x :: tr, a)
  end.

Definition run {A : Type} (w : World) (p : Prog A) : list Event * A :=
  run_from w 0 p.

(** Arguments of an [encode] call, payload of a [load_model] call. *)
Definition encode_args (ev : Event)
  : option (SentenceTransformer * list pyobj * option bool) :=
  match ev with
  | Called c _ =>
      match c with
      | encode m sentences flag => Some (m, sentences, flag)
      | _ => None
      end
  end.

Definition load_args (ev : Event) : option str :=
  match ev with
  | Called c _ =>
      match c with
      | load_model name => Some name
      | _ => None
      end
  end.

Fixpoint choose {A B : Type} (f : A -> option B) (l : list A) : list B :=
  match l with
  | [] => []
  | a :: l' =>
      match f a with
      | Some b => b :: choose f l'
      | None => choose f l'
      end
  end.

Definition encode_calls (tr : list Event) := choose encode_args tr.
Definition load_calls (tr : list Event) := choose load_args tr.

(** ** Module globals *)

Record Globals : Type := {
  MODEL_NAME : str;
  NORMALIZE_DEFAULT : bool;
  model : SentenceTransformer;
  EMBEDDING_DIM : Z;
  (** default of the field [normalize] stored in class [EmbeddingsRequest] *)
  normalize_field_default : option bool
}.

(** ** Start-up: the module-level statements *)

Inductive Boot : Type :=
| Fatal (e : RuntimeError)
| Serving (g : Globals).

Definition probe_dim (r : raises (list ndarray)) : Z :=
  match r with
  | Returned (v :: _) => Z.of_nat (List.length (tolist v))
  | Returned [] => 384
  | Raised _ => 384
  end.

(** [os.getenv(key, default)], from what the environment holds for [key]. *)
Definition or_default (value : option str) (default : str) : str :=
  match value with
  | Some v => v
  | None => default
  end.

Definition startup : Prog Boot :=
  imp <- call import_sentence_transformers ;;
  match imp with
  | Raised _ =>
      ret (Fatal {| runtime_message :=
        lit "Failed to import sentence_transformers. Please install requirements." |})
  | Returned _ =>
      env <- call (getenv (lit "EMBEDDINGS_MODEL_NAME")) ;;
      let name := or_default env (lit "BAAI/bge-small-en-v1.5") in
      let normalize_default := true in
      loaded <- call (load_model name) ;;
      match loaded with
      | Raised _ =>
          ret (Fatal {| runtime_message :=
            lit "Failed to load model '" ++ name ++ lit "'." |})
      | Returned m =>
          _probe <- call (encode m [py_str (lit "test")] (Some normalize_default)) ;;
          ret (Serving {| MODEL_NAME := name;
                          NORMALIZE_DEFAULT := normalize_default;
                          model := m;
                          EMBEDDING_DIM := probe_dim _probe;
                          normalize_field_default := Some normalize_default |})
      end
  end.

(** The model name a start-up in world [w] settles on: the environment is
    read by the second call of the run. *)
Definition configured_name (w : World) : str :=
  or_default (w _ 1 (getenv (lit "EMBEDDINGS_MODEL_NAME")))
             (lit "BAAI/bge-small-en-v1.5").

(** The one probe of start-up. *)
Definition probe_call (m : SentenceTransformer) : Call (raises (list ndarray)) :=
  encode m [py_str (lit "test")] (Some true).

(** ** Request handlers

    A handler reads the module globals, may call into the model library and
    either returns its JSON body or raises an [HTTPException]. The globals
    are threaded through every handler, so that a handler that rebinds one
    would be seen. *)

Definition Handler (A : Type) : Type := Globals -> Prog (Globals * reply A).

Definition Handler_ret {A : Type} (a : A) : Handler A :=
  fun g => Ret (g, Responds a).

Definition Handler_bind {A B : Type} (h : Handler A) (f : A -> Handler B)
  : Handler B :=
  fun g =>
    Prog_bind (h g) (fun r =>
      match r with
      | (g', Responds a) => f a g'
      | (g', Fails e) => Ret (g', Fails e)
      end).

#[local] Instance Monad_Handler : Monad Handler :=
  {| ret := @Handler_ret; bind := @Handler_bind |}.

(** Reading a module global. *)
Definition global {T : Type} (name : Globals -> T) : Handler T :=
  fun g => Ret (g, Responds (name g)).

Definition raise_http {A : Type} (e : HTTPException) : Handler A :=
  fun g => Ret (g, Fails e).

(** A library call inside [try]: the outcome is handed to the handler. *)
Definition try_call {X : Type} (c : Call X) : Handler X :=
  fun g => Do c (fun x => Ret (g, Responds x)).

(** *** JSON bodies *)

Record HealthBody : Type := {
  health_status : str;
  health_model : str;
  health_dimension : Z
}.

Record RootBody : Type := {
  root_message : str;
  root_model : str;
  root_dimension : Z
}.

Record EmbeddingItem : Type := { embedding : list number }.

Record EmbeddingsBody : Type := {
  emb_model : str;
  emb_dimension : Z;
  data : list EmbeddingItem
}.

(** *** class EmbeddingsRequest *)

Record EmbeddingsRequest : Type := {
  input : list pyobj;
  normalize : option bool
}.

(** Building a request from a body: [field] is [None] when the body has no
    [normalize] key, [Some v] when it gives one ([Some None] for [null]). *)
Definition EmbeddingsRequest_init (g : Globals) (inp : list pyobj)
  (field : option (option bool)) : EmbeddingsRequest :=
  {| input := inp;
     normalize :=
       match field with
       | None => normalize_field_default g
       | Some v => v
       end |}.

(** *** The routes *)

Definition health : Handler HealthBody :=
  name <- global MODEL_NAME ;;
  dim <- global EMBEDDING_DIM ;;
  ret {| health_status := lit "ok";
         health_model := name;
         health_dimension := dim |}.

Definition embeddings (req : EmbeddingsRequest) : Handler EmbeddingsBody :=
  let texts := filter keeps (input req) in
  if negb (truthy texts) then
    raise_http {| status_code := 400;
                  detail := lit "Input must contain at least one non-empty string." |}
  else
    m <- global model ;;
    outcome <- try_call (encode m texts (normalize req)) ;;
    match outcome with
    | Raised e =>
        raise_http {| status_code := 500;
                      detail := lit "Encoding failed: " ++ exc_str e |}
    | Returned vecs =>
        let data := map (fun v => {| embedding := tolist v |}) vecs in
        name <- global MODEL_NAME ;;
        dim <- global EMBEDDING_DIM ;;
        ret {| emb_model := name; emb_dimension := dim; data := data |}
    end.

Definition root : Handler RootBody :=
  name <- global MODEL_NAME ;;
  dim <- global EMBEDDING_DIM ;;
  ret {| root_message := lit "Embeddings service ready";
         root_model := name;
         root_dimension := dim |}.

(** *** Routing

    A [Request] is a request as it reaches a handler: the framework has
    matched the route and, for the [POST], has built the
    [EmbeddingsRequest] from the body. A body the framework turns down
    against the fields of the class (its 422 answer) reaches no handler and
    is no [Request]; what the framework does with the value a handler
    returns is not part of a reply either. *)

Inductive Request : Type :=
| GET_health
| GET_root
| POST_embeddings (req : EmbeddingsRequest).

Inductive Body : Type :=
| health_body (b : HealthBody)
| root_body (b : RootBody)
| embeddings_body (b : EmbeddingsBody).

Definition app (r : Request) : Handler Body :=
  match r with
  | GET_health => b <- health ;; ret (health_body b)
  | GET_root => b <- root ;; ret (root_body b)
  | POST_embeddings req => b <- embeddings req ;; ret (embeddings_body b)
  end.

(** A process serving requests one after the other. *)
Fixpoint serve (rs : list Request) (g : Globals)
  : Prog (Globals * list (reply Body)) :=
  match rs with
  | [] => Ret (g, [])
  | r :: rs' =>
      Prog_bind (app r g) (fun '(g', out) =>
        Prog_bind (serve rs' g') (fun '(g'', outs) =>
          Ret (g'', out :: outs)))
  end.

(** The two errors [embeddings] raises. *)
Definition no_input_error : HTTPException :=
  {| status_code := 400;
     detail := lit "Input must contain at least one non-empty string." |}.

Definition encoding_error (e : Exception) : HTTPException :=
  {| status_code := 500;
     detail := lit "Encoding failed: " ++ exc_str e |}.

(** What [embeddings] answers once the world has answered its call. *)
Definition embeddings_reply (g : Globals) (outcome : raises (list ndarray))
  : reply EmbeddingsBody :=
  match outcome with
  | Returned vecs =>
      Responds {| emb_model := MODEL_NAME g;
                  emb_dimension := EMBEDDING_DIM g;
                  data := map (fun v => {| embedding := tolist v |}) vecs |}
  | Raised e => Fails (encoding_error e)
  end.

(** Model name and dimension a reply reports, when it reports them. *)
Definition reported (r : reply Body) : option (str * Z) :=
  match r with
  | Responds (health_body b) => Some (health_model b, health_dimension b)
  | Responds (root_body b) => Some (root_model b, root_dimension b)
  | Responds (embeddings_body b) => Some (emb_model b, emb_dimension b)
  | Fails _ => None
  end.

(** A reply agrees with the globals when it reports their model name and
    dimension, or is an error and reports none. *)
Definition agrees (g : Globals) (out : reply Body) : Prop :=
  match reported out with
  | Some nd => nd = (MODEL_NAME g, EMBEDDING_DIM g)
  | None => exists e, out = Fails e
  end.

End Service.

Arguments Ret {number SentenceTransformer A} a.
Arguments Do {number SentenceTransformer A X} c k.

(** ** The filter, in the words of the contract

    An element is usable when it is a string that is neither empty nor made
    of whitespace only. *)
Definition whitespace_only (s : str) : bool := forallb isspace s.

Definition usable (t : pyobj) : bool :=
  match t with
  | py_str s => negb (Nat.eqb (List.length s) 0) && negb (whitespace_only s)
  | _ => false
  end.

(** The same on a string alone, and a request as the framework builds it
    from a list of strings. *)
Definition nonblank (s : str) : bool :=
  negb (Nat.eqb (List.length s) 0) && negb (whitespace_only s).

Definition request_of_strings (texts : list str) (flag : option bool)
  : EmbeddingsRequest :=
  {| input := map py_str texts; normalize := flag |}.

(** ** Sample worlds and requests

    A model with three-dimensional integer vectors, whose rows record the
    number of code points of each sentence. *)
Definition toy_row (t : pyobj) : @ndarray Z :=
  match t with
  | py_str s => {| tolist := [Z.of_nat (List.length s); 0; 1]%Z |}
  | _ => {| tolist := [0; 0; 0]%Z |}
  end.

Definition oom : Exception := {| exc_str := lit "CUDA out of memory" |}.

(** Every call succeeds; the environment variable is not set. *)
Definition world_ok : @World Z unit :=
  fun X n c =>
    match c in Call X return X with
    | import_sentence_transformers => Returned tt
    | getenv _ => None
    | load_model _ => Returned tt
    | encode _ sentences _ => Returned (map toy_row sentences)
    end.

(** The first call of a run fails when it is an [encode]; later ones
    succeed. *)
Definition world_encode_fails_once : @World Z unit :=
  fun X n c =>
    match c in Call X return X with
    | import_sentence_transformers => Returned tt
    | getenv _ => None
    | load_model _ => Returned tt
    | encode _ sentences _ =>
        if Nat.eqb n 0 then Raised oom else Returned (map toy_row sentences)
    end.

(** The model loads and every [encode] fails. *)
Definition world_encode_fails : @World Z unit :=
  fun X n c =>
    match c in Call X return X with
    | import_sentence_transformers => Returned tt
    | getenv _ => Some (lit "my/model")
    | load_model _ => Returned tt
    | encode _ _ _ => Raised oom
    end.

(** The model cannot be loaded. *)
Definition world_load_fails : @World Z unit :=
  fun X n c =>
    match c in Call X return X with
    | import_sentence_transformers => Returned tt
    | getenv _ => None
    | load_model _ => Raised {| exc_str := lit "model not found" |}
    | encode _ sentences _ => Returned (map toy_row sentences)
    end.

Definition sample_globals : @Globals unit :=
  {| MODEL_NAME := lit "BAAI/bge-small-en-v1.5";
     NORMALIZE_DEFAULT := true;
     model := tt;
     EMBEDDING_DIM := 3;
     normalize_field_default := Some true |}.

Definition abc_request : EmbeddingsRequest :=
  {| input := [py_str (lit "a"); py_str (lit ""); py_str (lit " b ");
               py_str (lit "   "); py_str (lit "c")];
     normalize := Some false |}.

Definition blank_request : EmbeddingsRequest :=
  {| input := [py_str (lit ""); py_str (lit "   ")];
     normalize := Some true |}.

(** ** Accounting for the calls of a process *)

(** The [encode] call a request leads to in a process with globals [g]:
    none for the two [GET] routes and for a [POST] without usable input. *)
Definition encoding_of {SentenceTransformer : Type}
  (g : @Globals SentenceTransformer) (r : Request)
  : option (SentenceTransformer * list pyobj * option bool) :=
  match r with
  | POST_embeddings req =>
      match filter usable (input req) with
      | [] => None
      | t :: texts => Some (model g, t :: texts, normalize req)
      end
  | _ => None
  end.

(** The library cannot be imported. *)
Definition world_import_fails : @World Z unit :=
  fun X n c =>
    match c in Call X return X with
    | import_sentence_transformers =>
        Raised {| exc_str := lit "No module named 'sentence_transformers'" |}
    | getenv _ => None
    | load_model _ => Returned tt
    | encode _ sentences _ => Returned (map toy_row sentences)
    end.

(** The environment variable is set, to the empty string. *)
Definition world_env_empty : @World Z unit :=
  fun X n c =>
    match c in Call X return X with
    | import_sentence_transformers => Returned tt
    | getenv _ => Some []
    | load_model _ => Returned tt
    | encode _ sentences _ => Returned (map toy_row sentences)
    end.

(** The probe of start-up (fourth call of the run) fails; every other
    [encode] succeeds. *)
Definition world_probe_fails : @World Z unit :=
  fun X n c =>
    match c in Call X return X with
    | import_sentence_transformers => Returned tt
    | getenv _ => None
    | load_model _ => Returned tt
    | encode _ sentences _ =>
        if Nat.eqb n 3 then Raised oom else Returned (map toy_row sentences)
    end.

Definition fallback_globals : @Globals unit :=
  {| MODEL_NAME := lit "BAAI/bge-small-en-v1.5";
     NORMALIZE_DEFAULT := true;
     model := tt;
     EMBEDDING_DIM := 384;
     normalize_field_default := Some true |}.

(** The reply to [abc_request] in a process whose probe failed. *)
Definition fallback_abc_body : @EmbeddingsBody Z :=
  {| emb_model := lit "BAAI/bge-small-en-v1.5";
     emb_dimension := 384;
     data := [{| embedding := [1; 0; 1]%Z |};
              {| embedding := [3; 0; 1]%Z |};
              {| embedding := [1; 0; 1]%Z |}] |}.

Definition abc_only_request : EmbeddingsRequest :=
  {| input := [py_str (lit "a"); py_str (lit " b "); py_str (lit "c")];
     normalize := Some false |}.

(** * Properties *)

(** ** Stripping and the filter *)

Lemma lstrip_nil_iff (s : str) : lstrip s = [] <-> whitespace_only s = true.
Proof.
  unfold whitespace_only.
  induction s as [|c s IH]; simpl.
  - split; reflexivity.
  - destruct (isspace c); simpl.
    + exact IH.
    + split; discriminate.
Qed.

Lemma lstrip_head (s : str) (c : codepoint) (rest : str) :
  lstrip s = c :: rest -> isspace c = false.
Proof.
  induction s as [|d s IH]; simpl.
  - discriminate.
  - destruct (isspace d) eqn:Hd.
    + exact IH.
    + intros H. injection H as -> _. exact Hd.
Qed.

Lemma whitespace_only_app (s t : str) :
  whitespace_only (s ++ t) = whitespace_only s && whitespace_only t.
Proof. apply forallb_app. Qed.

(** [s.strip()] is truthy exactly when [s] holds a character that is not
    whitespace. *)
Lemma truthy_strip (s : str) : truthy (strip s) = negb (whitespace_only s).
Proof.
  unfold strip, rstrip.
  destruct (lstrip s) as [|c rest] eqn:Hl.
  - apply lstrip_nil_iff in Hl. rewrite Hl. reflexivity.
  - assert (Hs : whitespace_only s = false).
    { destruct (whitespace_only s) eqn:Hw; [|reflexivity].
      apply lstrip_nil_iff in Hw. congruence. }
    rewrite Hs. simpl negb.
    apply lstrip_head in Hl.
    destruct (lstrip (rev (c :: rest))) as [|d rest'] eqn:Hr.
    + apply lstrip_nil_iff in Hr. simpl in Hr.
      rewrite whitespace_only_app in Hr. simpl in Hr.
      rewrite Hl in Hr. rewrite andb_comm in Hr. discriminate.
    + simpl. destruct (rev rest' ++ [d]) eqn:Happ; [|reflexivity].
      destruct (rev rest'); discriminate.
Qed.

Lemma whitespace_only_nil_length (s : str) :
  whitespace_only s = false -> Nat.eqb (List.length s) 0 = false.
Proof. destruct s; [discriminate | reflexivity]. Qed.

(** The test of the source is the test of the contract. *)
Lemma keeps_usable (t : pyobj) : keeps t = usable t.
Proof.
  destruct t as [s| |]; simpl; try reflexivity.
  rewrite truthy_strip.
  destruct (whitespace_only s) eqn:Hw; simpl.
  - symmetry. apply andb_false_r.
  - rewrite (whitespace_only_nil_length s Hw). reflexivity.
Qed.

Lemma filter_keeps_usable (l : list pyobj) : filter keeps l = filter usable l.
Proof. apply filter_ext. exact keeps_usable. Qed.

Lemma usable_is_str (t : pyobj) :
  usable t = true ->
  exists s, t = py_str s /\ s <> [] /\ exists c, In c s /\ isspace c = false.
Proof.
  destruct t as [s| |]; simpl; try discriminate.
  intros H. apply andb_prop in H. destruct H as [Hlen Hw].
  exists s. split; [reflexivity|]. split.
  - intros ->. discriminate.
  - apply negb_true_iff in Hw. unfold whitespace_only in Hw.
    destruct (forallb_forall isspace s) as [_ Hall].
    destruct (existsb (fun c => negb (isspace c)) s) eqn:Hex.
    + apply existsb_exists in Hex. destruct Hex as [c [Hin Hc]].
      exists c. split; [exact Hin|]. now apply negb_true_iff.
    + exfalso. rewrite Hall in Hw; [discriminate|].
      intros c Hin.
      destruct (isspace c) eqn:Hc; [reflexivity|].
      assert (Hex' : existsb (fun c => negb (isspace c)) s = true).
      { apply existsb_exists. exists c. rewrite Hc. split; [exact Hin|reflexivity]. }
      congruence.
Qed.

Lemma str_with_ink_usable (s : str) (c : codepoint) :
  In c s -> isspace c = false -> usable (py_str s) = true.
Proof.
  intros Hin Hc. simpl.
  assert (Hw : whitespace_only s = false).
  { destruct (whitespace_only s) eqn:Hw; [|reflexivity].
    unfold whitespace_only in Hw.
    rewrite forallb_forall in Hw. rewrite (Hw c Hin) in Hc. discriminate. }
  rewrite Hw, (whitespace_only_nil_length s Hw). reflexivity.
Qed.

Section Runs.

Context {number : Type} {SentenceTransformer : Type}.

(** ** Runs of the handlers *)

Lemma run_from_bind {A B : Type} (w : @World number SentenceTransformer)
  (p : Prog A) (f : A -> Prog B) :
  forall n,
    run_from w n (Prog_bind p f) =
      (fst (run_from w n p)
         ++ fst (run_from w (n + List.length (fst (run_from w n p)))
                   (f (snd (run_from w n p)))),
       snd (run_from w (n + List.length (fst (run_from w n p)))
              (f (snd (run_from w n p))))).
Proof.
  induction p as [a|X c k IH]; intros n; simpl.
  - rewrite Nat.add_0_r. destruct (run_from w n (f a)); reflexivity.
  - rewrite IH.
    destruct (run_from w (S n) (k (w X n c))) as [tr a]; simpl.
    rewrite Nat.add_succ_r. reflexivity.
Qed.

Lemma embeddings_run_blank (w : @World number SentenceTransformer) (n : nat) (g : Globals)
  (req : EmbeddingsRequest) :
  filter keeps (input req) = [] ->
  run_from w n (embeddings req g) = ([], (g, Fails no_input_error)).
Proof.
  intros H. unfold embeddings. rewrite H. reflexivity.
Qed.

Lemma embeddings_run_texts (w : @World number SentenceTransformer) (n : nat) (g : Globals)
  (req : EmbeddingsRequest) :
  filter keeps (input req) <> [] ->
  run_from w n (embeddings req g) =
    let c := encode (model g) (filter keeps (input req)) (normalize req) in
    ([Called c (w _ n c)], (g, embeddings_reply g (w _ n c))).
Proof.
  intros H. unfold embeddings.
  destruct (filter keeps (input req)) as [|t texts] eqn:Hf; [congruence|].
  simpl.
  destruct (w _ n (encode (model g) (t :: texts) (normalize req)));
    reflexivity.
Qed.

Lemma app_run (w : @World number SentenceTransformer) (n : nat) (g : Globals) (r : Request) :
  fst (snd (run_from w n (app r g))) = g
  /\ agrees g (snd (snd (run_from w n (app r g))))
  /\ load_calls (fst (run_from w n (app r g))) = [].
Proof.
  destruct r as [| |req]; simpl.
  - repeat split.
  - repeat split.
  - unfold Handler_bind. rewrite run_from_bind.
    destruct (filter keeps (input req)) as [|t texts] eqn:Hf.
    + rewrite (embeddings_run_blank w n g req Hf). simpl.
      repeat split. unfold agrees. simpl. eauto.
    + rewrite (embeddings_run_texts w n g req) by (rewrite Hf; discriminate).
      rewrite Hf. simpl.
      destruct (w _ n (encode (model g) (t :: texts) (normalize req))); simpl.
      * repeat split.
      * repeat split. unfold agrees. simpl. eauto.
Qed.

Lemma serve_run (w : @World number SentenceTransformer) (rs : list Request) :
  forall (n : nat) (g : Globals),
    fst (snd (run_from w n (serve rs g))) = g
    /\ Forall (agrees g) (snd (snd (run_from w n (serve rs g))))
    /\ List.length (snd (snd (run_from w n (serve rs g)))) = List.length rs
    /\ load_calls (fst (run_from w n (serve rs g))) = [].
Proof.
  induction rs as [|r rs IH]; intros n g; simpl.
  - repeat split. constructor.
  - rewrite run_from_bind.
    destruct (app_run w n g r) as [Hg [Hout Hload]].
    destruct (run_from w n (app r g)) as [tr [g' out]]; simpl in *.
    subst g'.
    rewrite run_from_bind.
    destruct (IH (n + List.length tr) g) as [Hg' [Houts [Hlen Hload']]].
    destruct (run_from w (n + List.length tr) (serve rs g))
      as [tr' [g'' outs]]; simpl in *.
    subst g''. repeat split.
    + constructor; assumption.
    + now rewrite Hlen.
    + unfold load_calls in *. rewrite app_nil_r.
      clear - Hload Hload'. induction tr as [|ev tr IHtr]; simpl in *.
      * exact Hload'.
      * destruct (load_args ev); [discriminate|]. now apply IHtr.
Qed.

(** ** Start-up *)

Lemma startup_run_loaded (w : @World number SentenceTransformer)
  (u : unit) (m : SentenceTransformer) :
  w _ 0 import_sentence_transformers = Returned u ->
  w _ 2 (load_model (configured_name w)) = Returned m ->
  run w startup =
    ([Called import_sentence_transformers (Returned u);
      Called (getenv (lit "EMBEDDINGS_MODEL_NAME"))
             (w _ 1 (getenv (lit "EMBEDDINGS_MODEL_NAME")));
      Called (load_model (configured_name w)) (Returned m);
      Called (probe_call m) (w _ 3 (probe_call m))],
     Serving {| MODEL_NAME := configured_name w;
                NORMALIZE_DEFAULT := true;
                model := m;
                EMBEDDING_DIM := probe_dim (w _ 3 (probe_call m));
                normalize_field_default := Some true |}).
Proof.
  intros Himp Hload. unfold run, startup. simpl.
  rewrite Himp. simpl.
  unfold configured_name in Hload. rewrite Hload. simpl.
  reflexivity.
Qed.

Lemma startup_run_load_failed (w : @World number SentenceTransformer)
  (u : unit) (e : Exception) :
  w _ 0 import_sentence_transformers = Returned u ->
  w _ 2 (load_model (configured_name w)) = Raised e ->
  run w startup =
    ([Called import_sentence_transformers (Returned u);
      Called (getenv (lit "EMBEDDINGS_MODEL_NAME"))
             (w _ 1 (getenv (lit "EMBEDDINGS_MODEL_NAME")));
      Called (load_model (configured_name w)) (Raised e)],
     Fatal {| runtime_message :=
       lit "Failed to load model '" ++ configured_name w ++ lit "'." |}).
Proof.
  intros Himp Hload. unfold run, startup. simpl.
  rewrite Himp. simpl.
  unfold configured_name in Hload. rewrite Hload. simpl.
  reflexivity.
Qed.

(** A process that serves was started by a successful import and load, and
    holds the defaults of the source. *)
Lemma startup_serving (w : @World number SentenceTransformer) (g : Globals) :
  snd (run w startup) = Serving g ->
  NORMALIZE_DEFAULT g = true /\ normalize_field_default g = Some true.
Proof.
  unfold run, startup. simpl.
  destruct (w _ 0 import_sentence_transformers) as [u|e]; simpl.
  - destruct (w _ 2 (load_model _)) as [m|e]; simpl.
    + intros H. injection H as <-. split; reflexivity.
    + discriminate.
  - discriminate.
Qed.

(** ** The embeddings route *)

(** C1: when the input holds at least one usable string and the encode
    call returns, the reply is the record of the model name, the dimension
    and a data list with one record per returned row, the i-th record
    holding exactly the i-th row as a plain list; the library returning one
    row per sentence, the data list is as long as the filtered input. *)
Theorem embeddings_success (w : @World number SentenceTransformer) (n : nat)
  (g : Globals) (req : EmbeddingsRequest) (vecs : list ndarray) :
  filter usable (input req) <> [] ->
  w _ n (encode (model g) (filter usable (input req)) (normalize req))
    = Returned vecs ->
  List.length vecs = List.length (filter usable (input req)) ->
  exists body : EmbeddingsBody,
    snd (run_from w n (embeddings req g)) = (g, Responds body)
    /\ emb_model body = MODEL_NAME g
    /\ emb_dimension body = EMBEDDING_DIM g
    /\ List.length (data body) = List.length (filter usable (input req))
    /\ map embedding (data body) = map tolist vecs
    /\ (forall i, i < List.length (filter usable (input req)) ->
        exists v, nth_error vecs i = Some v
          /\ nth_error (data body) i = Some {| embedding := tolist v |}).
Proof.
  intros Hne Hret Hlen.
  rewrite <- filter_keeps_usable in *.
  rewrite (embeddings_run_texts w n g req Hne). cbv zeta. rewrite Hret.
  eexists. split; [reflexivity|]. simpl.
  repeat split.
  - now rewrite length_map.
  - rewrite map_map. reflexivity.
  - intros i Hi. rewrite <- Hlen in Hi.
    destruct (nth_error vecs i) as [v|] eqn:Hv.
    + exists v. split; [reflexivity|].
      rewrite nth_error_map, Hv. reflexivity.
    + apply nth_error_None in Hv. lia.
Qed.

(** C2: for every request the handler keeps exactly the usable elements of
    the input (strings that are neither empty nor whitespace only), and
    these are the sentences of its encode call when there are any; when
    none is left it fails with status 400 and the fixed message, and the
    run makes no call. *)
Theorem embeddings_blank_input (w : @World number SentenceTransformer)
  (n : nat) (g : Globals) (req : EmbeddingsRequest) :
  filter keeps (input req) = filter usable (input req)
  /\ (filter usable (input req) <> [] ->
      encode_calls (fst (run_from w n (embeddings req g)))
        = [(model g, filter usable (input req), normalize req)])
  /\ (filter usable (input req) = [] ->
      run_from w n (embeddings req g) =
        ([], (g, Fails {| status_code := 400;
                          detail := lit "Input must contain at least one non-empty string." |}))
      /\ encode_calls (fst (run_from w n (embeddings req g))) = []).
Proof.
  split; [apply filter_keeps_usable|]. split.
  - intros Hsome. rewrite <- filter_keeps_usable in *.
    rewrite (embeddings_run_texts w n g req Hsome). reflexivity.
  - intros Hnone.
    assert (Hk : filter keeps (input req) = []).
    { now rewrite filter_keeps_usable. }
    rewrite (embeddings_run_blank w n g req Hk).
    split; reflexivity.
Qed.

(** C3: with at least one usable string, when the encode call raises, the
    handler fails with status 500 and a message that ends with the text of
    the exception; the run holds that one call and no other. *)
Theorem embeddings_encode_failure (w : @World number SentenceTransformer)
  (n : nat) (g : Globals) (req : EmbeddingsRequest) (e : Exception) :
  filter usable (input req) <> [] ->
  w _ n (encode (model g) (filter usable (input req)) (normalize req))
    = Raised e ->
  run_from w n (embeddings req g) =
    ([Called (encode (model g) (filter usable (input req)) (normalize req))
             (Raised e)],
     (g, Fails {| status_code := 500;
                  detail := lit "Encoding failed: " ++ exc_str e |}))
  /\ encode_calls (fst (run_from w n (embeddings req g))) =
       [(model g, filter usable (input req), normalize req)].
Proof.
  intros Hne Hraise.
  rewrite <- filter_keeps_usable in *.
  rewrite (embeddings_run_texts w n g req Hne). cbv zeta. rewrite Hraise.
  split; reflexivity.
Qed.

(** C4: once the library is imported and the model loaded, start-up makes
    exactly one encode call, on the one string "test" with the default
    normalization flag; the dimension is the length of the first returned
    row, and 384 when the call raises or returns no row; in each case the
    process goes on to serve. *)
Theorem startup_probes_once (w : @World number SentenceTransformer)
  (u : unit) (m : SentenceTransformer) :
  w _ 0 import_sentence_transformers = Returned u ->
  w _ 2 (load_model (configured_name w)) = Returned m ->
  exists g : Globals,
    snd (run w startup) = Serving g
    /\ encode_calls (fst (run w startup)) =
         [(m, [py_str (lit "test")], Some (NORMALIZE_DEFAULT g))]
    /\ NORMALIZE_DEFAULT g = true
    /\ EMBEDDING_DIM g =
         match w _ 3 (encode m [py_str (lit "test")] (Some true)) with
         | Returned (v :: _) => Z.of_nat (List.length (tolist v))
         | Returned [] => 384%Z
         | Raised _ => 384%Z
         end.
Proof.
  intros Himp Hload.
  rewrite (startup_run_loaded w u m Himp Hload).
  eexists. split; [reflexivity|]. simpl.
  repeat split.
Qed.

(** ** One process, many requests *)

(** C5: in a process with globals [g], every reply to a sequence of
    requests that carries a model name and a dimension carries those of
    [g], whatever the route and however many requests came before; the
    health and root routes always answer with them. *)
Theorem same_model_and_dimension (w : @World number SentenceTransformer)
  (n : nat) (g : Globals) (rs : list Request) :
  Forall (agrees g) (snd (snd (run_from w n (serve rs g))))
  /\ List.length (snd (snd (run_from w n (serve rs g)))) = List.length rs
  /\ run_from w n (health g) =
       ([], (g, Responds {| health_status := lit "ok";
                            health_model := MODEL_NAME g;
                            health_dimension := EMBEDDING_DIM g |}))
  /\ run_from w n (root g) =
       ([], (g, Responds {| root_message := lit "Embeddings service ready";
                            root_model := MODEL_NAME g;
                            root_dimension := EMBEDDING_DIM g |}))
  /\ (forall req : EmbeddingsRequest,
        agrees g (snd (snd (run_from w n (app (POST_embeddings req) g))))).
Proof.
  destruct (serve_run w rs n g) as [_ [Hall [Hlen _]]].
  repeat split; try assumption.
  intros req. apply (app_run w n g (POST_embeddings req)).
Qed.

(** C6: in a started process, a request built without the [normalize] key
    is the request built with [normalize] set to true, the process-wide
    default; the two have the same run, call for call, and the same reply. *)
Theorem normalize_omitted_is_true (w0 : @World number SentenceTransformer)
  (g : Globals) (inp : list pyobj) :
  snd (run w0 startup) = Serving g ->
  normalize (EmbeddingsRequest_init g inp None) = Some (NORMALIZE_DEFAULT g)
  /\ EmbeddingsRequest_init g inp None
       = EmbeddingsRequest_init g inp (Some (Some true))
  /\ forall (w : @World number SentenceTransformer) (n : nat),
       run_from w n (embeddings (EmbeddingsRequest_init g inp None) g)
       = run_from w n
           (embeddings (EmbeddingsRequest_init g inp (Some (Some true))) g).
Proof.
  intros Hstart.
  destruct (startup_serving w0 g Hstart) as [Hdef Hfield].
  assert (Heq : EmbeddingsRequest_init g inp None
                = EmbeddingsRequest_init g inp (Some (Some true))).
  { unfold EmbeddingsRequest_init. now rewrite Hfield. }
  repeat split.
  - simpl. now rewrite Hfield, Hdef.
  - exact Heq.
  - intros w n. now rewrite Heq.
Qed.

(** C7: when the import succeeds and loading the model raises, the run of
    start-up ends on that call with a fatal [RuntimeError] naming the
    model; no globals exist to serve from, and no request handler ever
    calls the loader. *)
Theorem load_failure_is_fatal (w : @World number SentenceTransformer)
  (u : unit) (e : Exception) :
  w _ 0 import_sentence_transformers = Returned u ->
  w _ 2 (load_model (configured_name w)) = Raised e ->
  snd (run w startup) =
    Fatal {| runtime_message :=
      lit "Failed to load model '" ++ configured_name w ++ lit "'." |}
  /\ load_calls (fst (run w startup)) = [configured_name w]
  /\ encode_calls (fst (run w startup)) = []
  /\ (forall g : Globals, snd (run w startup) <> Serving g)
  /\ (forall (w' : @World number SentenceTransformer) (n : nat) (g : Globals)
             (rs : list Request),
        load_calls (fst (run_from w' n (serve rs g))) = []).
Proof.
  intros Himp Hload.
  rewrite (startup_run_load_failed w u e Himp Hload). simpl.
  repeat split.
  - intros g. discriminate.
  - intros w' n g rs. apply (serve_run w' rs n g).
Qed.

(** C8: in a started process, a request whose [normalize] is an explicit
    null reaches the encode call with the flag [None], while the request
    without the key reaches it with [Some true]: the two requests differ. *)
Theorem normalize_null_is_None (w0 w : @World number SentenceTransformer)
  (n : nat) (g : Globals) (inp : list pyobj) :
  snd (run w0 startup) = Serving g ->
  filter usable inp <> [] ->
  encode_calls
    (fst (run_from w n (embeddings (EmbeddingsRequest_init g inp (Some None)) g)))
    = [(model g, filter usable inp, None)]
  /\ encode_calls
       (fst (run_from w n (embeddings (EmbeddingsRequest_init g inp None) g)))
     = [(model g, filter usable inp, Some true)]
  /\ EmbeddingsRequest_init g inp (Some None) <> EmbeddingsRequest_init g inp None.
Proof.
  intros Hstart Hne.
  destruct (startup_serving w0 g Hstart) as [_ Hfield].
  rewrite <- filter_keeps_usable in *.
  rewrite !embeddings_run_texts by exact Hne.
  unfold EmbeddingsRequest_init. simpl. rewrite Hfield.
  repeat split. intros H. discriminate.
Qed.

(** C9: the sentences of the encode call are the usable elements of the
    input, each the very element of the input: a string with a character
    that is not whitespace is passed as it came, in the order of the
    input, and an input whose elements are all usable is passed whole. *)
Theorem encode_gets_original_strings (w : @World number SentenceTransformer)
  (n : nat) (g : Globals) (req : EmbeddingsRequest) :
  filter usable (input req) <> [] ->
  exists sentences : list pyobj,
    encode_calls (fst (run_from w n (embeddings req g)))
      = [(model g, sentences, normalize req)]
    /\ sentences = filter usable (input req)
    /\ (forall t, In t sentences ->
        In t (input req)
        /\ exists s, t = py_str s /\ s <> []
             /\ exists c, In c s /\ isspace c = false)
    /\ (forall s c, In (py_str s) (input req) -> In c s -> isspace c = false ->
        In (py_str s) sentences)
    /\ (forallb usable (input req) = true -> sentences = input req).
Proof.
  intros Hne.
  exists (filter usable (input req)).
  split; [|split; [|split; [|split]]].
  - rewrite <- filter_keeps_usable in *.
    rewrite (embeddings_run_texts w n g req Hne). reflexivity.
  - reflexivity.
  - intros t Hin. apply filter_In in Hin. destruct Hin as [Hin Hu].
    split; [exact Hin|]. exact (usable_is_str t Hu).
  - intros s c Hin Hc Hsp. apply filter_In. split; [exact Hin|].
    exact (str_with_ink_usable s c Hc Hsp).
  - intros Hall. apply forallb_filter_id. exact Hall.
Qed.

(** C10: a request handler, whether it answers or raises, hands back the
    globals it was given: model name, default flag, model binding,
    dimension and the default of the request class are those it found, for
    one request and for any sequence of them. *)
Theorem handlers_leave_globals (w : @World number SentenceTransformer)
  (n : nat) (g : Globals) (r : Request) (rs : list Request) :
  fst (snd (run_from w n (app r g))) = g
  /\ fst (snd (run_from w n (serve rs g))) = g.
Proof.
  split.
  - apply (app_run w n g r).
  - apply (serve_run w rs n g).
Qed.

End Runs.

(** * The contract on sample runs *)

Lemma embeddings_success_witness :
  exists body : EmbeddingsBody,
    snd (run_from world_ok 0 (embeddings abc_request sample_globals))
      = (sample_globals, Responds body)
    /\ emb_model body = MODEL_NAME sample_globals
    /\ emb_dimension body = EMBEDDING_DIM sample_globals
    /\ List.length (data body) = List.length (filter usable (input abc_request))
    /\ map embedding (data body)
         = map tolist (map toy_row (filter usable (input abc_request)))
    /\ (forall i, i < List.length (filter usable (input abc_request)) ->
        exists v,
          nth_error (map toy_row (filter usable (input abc_request))) i = Some v
          /\ nth_error (data body) i = Some {| embedding := tolist v |}).
Proof.
  apply (embeddings_success world_ok 0 sample_globals abc_request
           (map toy_row (filter usable (input abc_request)))).
  - vm_compute. discriminate.
  - reflexivity.
  - apply length_map.
Defined.

Lemma embeddings_blank_input_witness :
  filter keeps (input abc_request)
    = [py_str (lit "a"); py_str (lit " b "); py_str (lit "c")]
  /\ encode_calls (fst (run_from world_ok 0 (embeddings abc_request sample_globals)))
       = [(tt, [py_str (lit "a"); py_str (lit " b "); py_str (lit "c")],
           Some false)]
  /\ run_from world_ok 0 (embeddings blank_request sample_globals) =
       ([], (sample_globals,
             Fails {| status_code := 400;
                      detail := lit "Input must contain at least one non-empty string." |}))
  /\ encode_calls (fst (run_from world_ok 0 (embeddings blank_request sample_globals)))
       = [].
Proof.
  split; [|split].
  - exact (proj1 (embeddings_blank_input world_ok 0 sample_globals abc_request)).
  - apply (proj1 (proj2 (embeddings_blank_input world_ok 0 sample_globals
                           abc_request))).
    vm_compute. discriminate.
  - apply (proj2 (proj2 (embeddings_blank_input world_ok 0 sample_globals
                           blank_request))).
    reflexivity.
Defined.

Lemma embeddings_encode_failure_witness :
  run_from world_encode_fails_once 0 (embeddings abc_request sample_globals) =
    ([Called (encode tt (filter usable (input abc_request)) (Some false))
             (Raised oom)],
     (sample_globals,
      Fails {| status_code := 500;
               detail := lit "Encoding failed: " ++ lit "CUDA out of memory" |}))
  /\ encode_calls
       (fst (run_from world_encode_fails_once 0
               (embeddings abc_request sample_globals)))
     = [(tt, filter usable (input abc_request), Some false)].
Proof.
  apply (embeddings_encode_failure world_encode_fails_once 0 sample_globals
           abc_request oom).
  - vm_compute. discriminate.
  - reflexivity.
Defined.

Lemma startup_probes_once_witness :
  exists g : Globals,
    snd (run world_encode_fails startup) = Serving g
    /\ encode_calls (fst (run world_encode_fails startup)) =
         [(tt, [py_str (lit "test")], Some (NORMALIZE_DEFAULT g))]
    /\ NORMALIZE_DEFAULT g = true
    /\ EMBEDDING_DIM g = 384%Z.
Proof.
  exact (startup_probes_once world_encode_fails tt tt eq_refl eq_refl).
Defined.

Lemma normalize_omitted_is_true_witness :
  normalize (EmbeddingsRequest_init sample_globals (input abc_request) None)
    = Some true
  /\ EmbeddingsRequest_init sample_globals (input abc_request) None
       = EmbeddingsRequest_init sample_globals (input abc_request) (Some (Some true))
  /\ forall (w : @World Z unit) (n : nat),
       run_from w n
         (embeddings
            (EmbeddingsRequest_init sample_globals (input abc_request) None)
            sample_globals)
       = run_from w n
           (embeddings
              (EmbeddingsRequest_init sample_globals (input abc_request)
                 (Some (Some true)))
              sample_globals).
Proof.
  apply (normalize_omitted_is_true world_ok sample_globals (input abc_request)).
  reflexivity.
Defined.

Lemma load_failure_is_fatal_witness :
  snd (run world_load_fails startup) =
    Fatal {| runtime_message :=
      lit "Failed to load model 'BAAI/bge-small-en-v1.5'." |}
  /\ load_calls (fst (run world_load_fails startup))
       = [lit "BAAI/bge-small-en-v1.5"]
  /\ encode_calls (fst (run world_load_fails startup)) = []
  /\ (forall g : Globals, snd (run world_load_fails startup) <> Serving g)
  /\ (forall (w' : @World Z unit) (n : nat) (g : Globals) (rs : list Request),
        load_calls (fst (run_from w' n (serve rs g))) = []).
Proof.
  exact (load_failure_is_fatal world_load_fails tt
           {| exc_str := lit "model not found" |} eq_refl eq_refl).
Defined.

Lemma normalize_null_is_None_witness :
  encode_calls
    (fst (run_from world_ok 0
            (embeddings
               (EmbeddingsRequest_init sample_globals (input abc_request) (Some None))
               sample_globals)))
    = [(tt, filter usable (input abc_request), None)]
  /\ encode_calls
       (fst (run_from world_ok 0
               (embeddings
                  (EmbeddingsRequest_init sample_globals (input abc_request) None)
                  sample_globals)))
     = [(tt, filter usable (input abc_request), Some true)]
  /\ EmbeddingsRequest_init sample_globals (input abc_request) (Some None)
       <> EmbeddingsRequest_init sample_globals (input abc_request) None.
Proof.
  apply (normalize_null_is_None world_ok world_ok 0 sample_globals
           (input abc_request)).
  - reflexivity.
  - vm_compute. discriminate.
Defined.

Lemma encode_gets_original_strings_witness :
  exists sentences : list pyobj,
    encode_calls (fst (run_from world_ok 0 (embeddings abc_request sample_globals)))
      = [(tt, sentences, Some false)]
    /\ sentences = filter usable (input abc_request)
    /\ (forall t, In t sentences ->
        In t (input abc_request)
        /\ exists s, t = py_str s /\ s <> []
             /\ exists c, In c s /\ isspace c = false)
    /\ (forall s c, In (py_str s) (input abc_request) -> In c s ->
        isspace c = false -> In (py_str s) sentences)
    /\ (forallb usable (input abc_request) = true ->
        sentences = input abc_request).
Proof.
  apply (encode_gets_original_strings world_ok 0 sample_globals abc_request).
  vm_compute. discriminate.
Defined.

(** ** Scenarios of the contract *)

Example strip_keeps_inner_whitespace :
  strip (lit "  a b  ") = lit "a b".
Proof. reflexivity. Qed.

Example scenario_hello_world :
  snd (run world_ok
         (embeddings {| input := [py_str (lit "hello world")];
                        normalize := Some true |} sample_globals))
  = (sample_globals,
     Responds {| emb_model := lit "BAAI/bge-small-en-v1.5";
                 emb_dimension := 3;
                 data := [{| embedding := [11; 0; 1]%Z |}] |}).
Proof. reflexivity. Qed.

Example scenario_blank :
  snd (run world_ok (embeddings blank_request sample_globals))
  = (sample_globals, Fails no_input_error).
Proof. reflexivity. Qed.

Example scenario_padded_string_unchanged :
  encode_calls
    (fst (run world_ok
            (embeddings {| input := [py_str (lit "  a b  "); py_int 7; py_None];
                           normalize := None |} sample_globals)))
  = [(tt, [py_str (lit "  a b  ")], None)].
Proof. reflexivity. Qed.

Example scenario_startup_default :
  snd (run world_ok startup) = Serving sample_globals.
Proof. reflexivity. Qed.

Example scenario_four_requests :
  map reported
    (snd (snd (run world_encode_fails_once
                 (serve [POST_embeddings abc_request; GET_health;
                         POST_embeddings abc_request; GET_root]
                        sample_globals))))
  = [None;
     Some (lit "BAAI/bge-small-en-v1.5", 3%Z);
     Some (lit "BAAI/bge-small-en-v1.5", 3%Z);
     Some (lit "BAAI/bge-small-en-v1.5", 3%Z)].
Proof. reflexivity. Qed.

(** * Further properties of start-up and of the routes *)

Lemma choose_app {A B : Type} (f : A -> option B) (l1 l2 : list A) :
  choose f (l1 ++ l2) = choose f l1 ++ choose f l2.
Proof.
  induction l1 as [|a l1 IH]; simpl.
  - reflexivity.
  - destruct (f a); simpl; now rewrite IH.
Qed.


Section Process.

Context {number : Type} {SentenceTransformer : Type}.

(** ** Start-up *)

Lemma startup_run_import_failed (w : @World number SentenceTransformer)
  (e : Exception) :
  w _ 0 import_sentence_transformers = Raised e ->
  run w startup =
    ([Called import_sentence_transformers (Raised e)],
     Fatal {| runtime_message :=
       lit "Failed to import sentence_transformers. Please install requirements." |}).
Proof.
  intros Himp. unfold run, startup. simpl. rewrite Himp. reflexivity.
Qed.

(** X1: when the import of the model library raises, start-up is fatal with the
    import message, and the import is the only call made: the environment
    is not read, no model is loaded, nothing is encoded. *)
Theorem import_failure_is_fatal (w : @World number SentenceTransformer)
  (e : Exception) :
  w _ 0 import_sentence_transformers = Raised e ->
  snd (run w startup) =
    Fatal {| runtime_message :=
      lit "Failed to import sentence_transformers. Please install requirements." |}
  /\ fst (run w startup) = [Called import_sentence_transformers (Raised e)]
  /\ load_calls (fst (run w startup)) = []
  /\ encode_calls (fst (run w startup)) = [].
Proof.
  intros Himp. rewrite (startup_run_import_failed w e Himp).
  repeat split.
Qed.

(** X2: once the library is imported, the model is loaded exactly once, under
    the value of EMBEDDINGS_MODEL_NAME when the variable is set (whatever
    the value, the empty string included) and under the built-in name
    otherwise; a process that serves reports that very name. *)
Theorem startup_loads_configured_name (w : @World number SentenceTransformer)
  (u : unit) :
  w _ 0 import_sentence_transformers = Returned u ->
  load_calls (fst (run w startup)) =
    [match w _ 1 (getenv (lit "EMBEDDINGS_MODEL_NAME")) with
     | Some v => v
     | None => lit "BAAI/bge-small-en-v1.5"
     end]
  /\ (forall g : Globals,
        snd (run w startup) = Serving g ->
        load_calls (fst (run w startup)) = [MODEL_NAME g]).
Proof.
  intros Himp.
  destruct (w _ 2 (load_model (configured_name w))) as [m|e] eqn:Hload.
  - rewrite (startup_run_loaded w u m Himp Hload). simpl. split.
    + reflexivity.
    + intros g Hg. injection Hg as <-. reflexivity.
  - rewrite (startup_run_load_failed w u e Himp Hload). simpl. split.
    + reflexivity.
    + intros g Hg. discriminate.
Qed.

(** X3: start-up ends in a serving process exactly when the import and the
    load of the model both return; the probe has no say in it. *)
Theorem startup_serves_iff (w : @World number SentenceTransformer) :
  (exists g : Globals, snd (run w startup) = Serving g)
  <-> ((exists u, w _ 0 import_sentence_transformers = Returned u)
       /\ (exists m, w _ 2 (load_model (configured_name w)) = Returned m)).
Proof.
  destruct (w _ 0 import_sentence_transformers) as [u|e] eqn:Himp.
  - destruct (w _ 2 (load_model (configured_name w))) as [m|e] eqn:Hload.
    + rewrite (startup_run_loaded w u m Himp Hload). simpl.
      split; intros _; eauto.
    + rewrite (startup_run_load_failed w u e Himp Hload). simpl.
      split.
      * intros [g Hg]. discriminate.
      * intros [_ [m Hm]]. discriminate.
  - rewrite (startup_run_import_failed w e Himp). simpl.
    split.
    + intros [g Hg]. discriminate.
    + intros [[u Hu] _]. discriminate.
Qed.

(** ** The calls of the routes *)

Lemma app_calls (w : @World number SentenceTransformer) (n : nat)
  (g : Globals) (r : Request) :
  encode_calls (fst (run_from w n (app r g))) =
    match encoding_of g r with
    | Some a => [a]
    | None => []
    end
  /\ List.length (fst (run_from w n (app r g)))
     = List.length (encode_calls (fst (run_from w n (app r g)))).
Proof.
  destruct r as [| |req]; simpl; try (split; reflexivity).
  unfold Handler_bind. rewrite run_from_bind.
  rewrite <- filter_keeps_usable.
  destruct (filter keeps (input req)) as [|t texts] eqn:Hf.
  - rewrite (embeddings_run_blank w n g req Hf). simpl. split; reflexivity.
  - rewrite (embeddings_run_texts w n g req) by (rewrite Hf; discriminate).
    rewrite Hf. simpl.
    destruct (w _ n (encode (model g) (t :: texts) (normalize req)));
      simpl; split; reflexivity.
Qed.

Lemma serve_cons_run (w : @World number SentenceTransformer) (n : nat)
  (g : Globals) (r : Request) (rs : list Request) :
  run_from w n (serve (r :: rs) g) =
    (fst (run_from w n (app r g))
       ++ fst (run_from w (n + List.length (fst (run_from w n (app r g))))
                 (serve rs g)),
     (g, snd (snd (run_from w n (app r g)))
           :: snd (snd (run_from w (n + List.length (fst (run_from w n (app r g))))
                          (serve rs g))))).
Proof.
  simpl. rewrite run_from_bind.
  destruct (app_run w n g r) as [Hg _].
  destruct (run_from w n (app r g)) as [tr [g' out]]; simpl in *. subst g'.
  rewrite run_from_bind.
  destruct (serve_run w rs (n + List.length tr) g) as [Hg' _].
  destruct (run_from w (n + List.length tr) (serve rs g)) as [tr' [g'' outs]];
    simpl in *.
  subst g''. now rewrite app_nil_r.
Qed.

Lemma serve_calls (w : @World number SentenceTransformer) (g : Globals)
  (rs : list Request) :
  forall n : nat,
    encode_calls (fst (run_from w n (serve rs g))) = choose (encoding_of g) rs
    /\ List.length (fst (run_from w n (serve rs g)))
       = List.length (choose (encoding_of g) rs).
Proof.
  induction rs as [|r rs IH]; intros n.
  - split; reflexivity.
  - rewrite serve_cons_run. cbn [fst snd].
    destruct (app_calls w n g r) as [Hcalls Hlen].
    destruct (IH (n + List.length (fst (run_from w n (app r g)))))
      as [IHcalls IHlen].
    unfold encode_calls in *. rewrite choose_app, length_app.
    rewrite IHcalls, IHlen, Hlen, Hcalls.
    cbn [choose]. destruct (encoding_of g r); split; reflexivity.
Qed.

(** X4: over any sequence of requests the calls made are exactly one [encode]
    per [POST] that holds usable input, in the order of the requests, each
    on the model of the globals with the filtered input and the flag of
    its request; the [GET] routes and blank [POST]s add no call. *)
Theorem serve_encodes_once_per_usable_post
  (w : @World number SentenceTransformer) (n : nat) (g : Globals)
  (rs : list Request) :
  encode_calls (fst (run_from w n (serve rs g))) = choose (encoding_of g) rs
  /\ List.length (fst (run_from w n (serve rs g)))
     = List.length (encode_calls (fst (run_from w n (serve rs g))))
  /\ List.length (fst (run_from w n (serve rs g))) <= List.length rs.
Proof.
  destruct (serve_calls w g rs n) as [Hcalls Hlen].
  rewrite Hcalls, Hlen. repeat split.
  clear. induction rs as [|r rs IH]; simpl.
  - lia.
  - destruct (encoding_of g r); simpl; lia.
Qed.

(** X5: serving a sequence of requests followed by another is serving the first
    and then the second from where the world's call count stands: traces
    and replies concatenate, and nothing else is carried over. *)
Theorem serve_app_requests (w : @World number SentenceTransformer) (n : nat)
  (g : Globals) (rs1 rs2 : list Request) :
  run_from w n (serve (rs1 ++ rs2) g) =
    (fst (run_from w n (serve rs1 g))
       ++ fst (run_from w (n + List.length (fst (run_from w n (serve rs1 g))))
                 (serve rs2 g)),
     (g, snd (snd (run_from w n (serve rs1 g)))
           ++ snd (snd (run_from w (n + List.length (fst (run_from w n (serve rs1 g))))
                          (serve rs2 g))))).
Proof.
  revert n. induction rs1 as [|r rs1 IH]; intros n.
  - simpl. rewrite Nat.add_0_r.
    destruct (serve_run w rs2 n g) as [Hg _].
    destruct (run_from w n (serve rs2 g)) as [tr [g' outs]]; simpl in *.
    now subst g'.
  - rewrite <- app_comm_cons. rewrite !serve_cons_run. cbn [fst snd].
    rewrite IH. cbn [fst snd].
    rewrite length_app, Nat.add_assoc, app_assoc. reflexivity.
Qed.

(** X6: in a process that start-up left serving, the model bound in the
    globals is the object the load call returned for the reported name, the
    probe was run on it, and every [encode] call of every later request is
    made on it. *)
Theorem requests_use_loaded_model (w0 : @World number SentenceTransformer)
  (g : Globals) :
  snd (run w0 startup) = Serving g ->
  In (Called (load_model (MODEL_NAME g)) (Returned (model g)))
     (fst (run w0 startup))
  /\ encode_calls (fst (run w0 startup))
       = [(model g, [py_str (lit "test")], Some true)]
  /\ (forall (w : @World number SentenceTransformer) (n : nat)
             (rs : list Request),
        Forall (fun a => fst (fst a) = model g)
               (encode_calls (fst (run_from w n (serve rs g))))).
Proof.
  intros Hg. split; [|split].
  - destruct (w0 _ 0 import_sentence_transformers) as [u|e] eqn:Himp.
    + destruct (w0 _ 2 (load_model (configured_name w0))) as [m|e] eqn:Hload.
      * rewrite (startup_run_loaded w0 u m Himp Hload) in *. simpl in Hg.
        injection Hg as <-. simpl. auto.
      * rewrite (startup_run_load_failed w0 u e Himp Hload) in Hg.
        discriminate.
    + rewrite (startup_run_import_failed w0 e Himp) in Hg. discriminate.
  - destruct (w0 _ 0 import_sentence_transformers) as [u|e] eqn:Himp.
    + destruct (w0 _ 2 (load_model (configured_name w0))) as [m|e] eqn:Hload.
      * rewrite (startup_run_loaded w0 u m Himp Hload) in *. simpl in Hg.
        injection Hg as <-. reflexivity.
      * rewrite (startup_run_load_failed w0 u e Himp Hload) in Hg.
        discriminate.
    + rewrite (startup_run_import_failed w0 e Himp) in Hg. discriminate.
  - intros w n rs. destruct (serve_calls w g rs n) as [-> _].
    clear. induction rs as [|r rs IH]; simpl.
    + constructor.
    + destruct (encoding_of g r) as [a|] eqn:Ha; [|exact IH].
      constructor; [|exact IH].
      destruct r as [| |req]; simpl in Ha; try discriminate.
      destruct (filter usable (input req)); [discriminate|].
      injection Ha as <-. reflexivity.
Qed.

(** X7: in a process that start-up left serving, the dimension of every
    successful embeddings reply is the one measured on the probe (the
    length of its first row, 384 when the probe raised or returned no row):
    it is not taken from the vectors the reply carries. *)
Theorem reply_dimension_is_probe_dimension
  (w0 w : @World number SentenceTransformer) (n : nat) (g : Globals)
  (req : EmbeddingsRequest) (body : EmbeddingsBody) :
  snd (run w0 startup) = Serving g ->
  snd (snd (run_from w n (embeddings req g))) = Responds body ->
  emb_dimension body =
    match w0 _ 3 (encode (model g) [py_str (lit "test")] (Some true)) with
    | Returned (v :: _) => Z.of_nat (List.length (tolist v))
    | Returned [] => 384%Z
    | Raised _ => 384%Z
    end
  /\ exists vecs,
       w _ n (encode (model g) (filter usable (input req)) (normalize req))
         = Returned vecs
       /\ map embedding (data body) = map tolist vecs.
Proof.
  intros Hg Hbody.
  assert (Hdim : EMBEDDING_DIM g =
                 probe_dim (w0 _ 3 (probe_call (model g)))).
  { destruct (w0 _ 0 import_sentence_transformers) as [u|e] eqn:Himp.
    - destruct (w0 _ 2 (load_model (configured_name w0))) as [m|e] eqn:Hload.
      + rewrite (startup_run_loaded w0 u m Himp Hload) in Hg. simpl in Hg.
        injection Hg as <-. reflexivity.
      + rewrite (startup_run_load_failed w0 u e Himp Hload) in Hg.
        discriminate.
    - rewrite (startup_run_import_failed w0 e Himp) in Hg. discriminate. }
  rewrite <- filter_keeps_usable.
  destruct (filter keeps (input req)) as [|t texts] eqn:Hf.
  - rewrite (embeddings_run_blank w n g req Hf) in Hbody. discriminate.
  - rewrite (embeddings_run_texts w n g req) in Hbody
      by (rewrite Hf; discriminate).
    rewrite Hf in Hbody. cbv zeta in Hbody. cbn [snd] in Hbody.
    destruct (w _ n (encode (model g) (t :: texts) (normalize req)))
      as [vecs|e]; simpl in Hbody; [|discriminate].
    injection Hbody as <-. simpl. split.
    + exact Hdim.
    + exists vecs. split; [reflexivity|]. now rewrite map_map.
Qed.

(** ** The embeddings route *)

(** The run of the handler depends on the input only through the elements
    its filter keeps. *)
Lemma embeddings_ignores_unusable (w : @World number SentenceTransformer)
  (n : nat) (g : Globals) (req1 req2 : EmbeddingsRequest) :
  filter usable (input req1) = filter usable (input req2) ->
  normalize req1 = normalize req2 ->
  run_from w n (embeddings req1 g) = run_from w n (embeddings req2 g).
Proof.
  intros Hin Hflag. rewrite <- !filter_keeps_usable in Hin.
  destruct (filter keeps (input req1)) as [|t texts] eqn:H1.
  - rewrite (embeddings_run_blank w n g req1 H1).
    rewrite (embeddings_run_blank w n g req2); [reflexivity|now symmetry].
  - rewrite (embeddings_run_texts w n g req1) by (rewrite H1; discriminate).
    rewrite (embeddings_run_texts w n g req2) by (rewrite <- Hin; discriminate).
    rewrite H1, <- Hin, Hflag. reflexivity.
Qed.

Lemma filter_usable_strings (texts : list str) :
  filter usable (map py_str texts) = map py_str (filter nonblank texts).
Proof.
  induction texts as [|s texts IH]; simpl.
  - reflexivity.
  - fold (nonblank s). destruct (nonblank s); simpl; now rewrite IH.
Qed.

(** X8: for requests whose input is a list of strings, as the route hands
    them to the handler, the run depends on the list only through its
    strings that are not blank: two lists with the same such strings in the
    same order, under the same flag, lead to the same call and the same
    reply, so empty and whitespace-only strings may be added or dropped
    anywhere without effect. *)
Theorem embeddings_ignores_blank_strings
  (w : @World number SentenceTransformer) (n : nat) (g : Globals)
  (texts1 texts2 : list str) (flag : option bool) :
  filter nonblank texts1 = filter nonblank texts2 ->
  run_from w n (embeddings (request_of_strings texts1 flag) g)
  = run_from w n (embeddings (request_of_strings texts2 flag) g)
  /\ encode_calls
       (fst (run_from w n (embeddings (request_of_strings texts1 flag) g)))
     = match filter nonblank texts2 with
       | [] => []
       | s :: rest => [(model g, map py_str (s :: rest), flag)]
       end.
Proof.
  intros Hsame. split.
  - apply embeddings_ignores_unusable; [|reflexivity].
    simpl. now rewrite !filter_usable_strings, Hsame.
  - pose proof (filter_usable_strings texts1) as Hf.
    rewrite Hsame in Hf. rewrite <- filter_keeps_usable in Hf.
    destruct (filter nonblank texts2) as [|s rest].
    + simpl in Hf.
      rewrite (embeddings_run_blank w n g (request_of_strings texts1 flag) Hf).
      reflexivity.
    + rewrite (embeddings_run_texts w n g (request_of_strings texts1 flag))
        by (simpl; simpl in Hf; rewrite Hf; discriminate).
      simpl. simpl in Hf. rewrite Hf. reflexivity.
Qed.


(** X10: the handlers raise in two situations only. The embeddings handler
    fails with [e] exactly when the input holds no usable string and [e] is
    the 400 with the fixed message, or the input holds one, the [encode]
    call raised and [e] is the 500 built on the text of what it raised; the
    health and root handlers never raise. *)
Theorem handlers_raise_two_errors (w : @World number SentenceTransformer)
  (n : nat) (g : Globals) (req : EmbeddingsRequest) (e : HTTPException) :
  (snd (snd (run_from w n (embeddings req g))) = Fails e
   <-> ((filter usable (input req) = [] /\ e = no_input_error)
        \/ (filter usable (input req) <> []
            /\ exists exn : Exception,
                 w _ n (encode (model g) (filter usable (input req))
                               (normalize req)) = Raised exn
                 /\ e = encoding_error exn)))
  /\ snd (snd (run_from w n (health g))) <> Fails e
  /\ snd (snd (run_from w n (root g))) <> Fails e.
Proof.
  split; [|split; discriminate].
  rewrite <- filter_keeps_usable.
  destruct (filter keeps (input req)) as [|t texts] eqn:Hf.
  - rewrite (embeddings_run_blank w n g req Hf). simpl. split.
    + intros H. injection H as <-. left. split; reflexivity.
    + intros [[_ ->]|[Hne _]]; [reflexivity | congruence].
  - rewrite (embeddings_run_texts w n g req) by (rewrite Hf; discriminate).
    rewrite Hf. cbv zeta. cbn [snd].
    destruct (w _ n (encode (model g) (t :: texts) (normalize req)))
      as [vecs|exn]; simpl; split.
    + discriminate.
    + intros [[Hnil _]|[_ [exn [Hexn _]]]]; discriminate.
    + intros H. injection H as <-. right. split; [discriminate|].
      exists exn. split; reflexivity.
    + intros [[Hnil _]|[_ [exn' [Hexn ->]]]]; [discriminate|].
      injection Hexn as <-. reflexivity.
Qed.

End Process.

(** ** Sample runs for the further properties *)

Lemma import_failure_is_fatal_witness :
  snd (run world_import_fails startup) =
    Fatal {| runtime_message :=
      lit "Failed to import sentence_transformers. Please install requirements." |}
  /\ fst (run world_import_fails startup) =
       [Called import_sentence_transformers
          (Raised {| exc_str := lit "No module named 'sentence_transformers'" |})]
  /\ load_calls (fst (run world_import_fails startup)) = []
  /\ encode_calls (fst (run world_import_fails startup)) = [].
Proof.
  apply (import_failure_is_fatal world_import_fails
           {| exc_str := lit "No module named 'sentence_transformers'" |}).
  reflexivity.
Defined.

Lemma startup_loads_configured_name_witness :
  load_calls (fst (run world_env_empty startup)) = [[]]
  /\ (forall g : Globals,
        snd (run world_env_empty startup) = Serving g ->
        load_calls (fst (run world_env_empty startup)) = [MODEL_NAME g]).
Proof.
  exact (startup_loads_configured_name world_env_empty tt eq_refl).
Defined.

Lemma requests_use_loaded_model_witness :
  In (Called (load_model (lit "BAAI/bge-small-en-v1.5")) (Returned tt))
     (fst (run world_ok startup))
  /\ encode_calls (fst (run world_ok startup))
       = [(tt, [py_str (lit "test")], Some true)]
  /\ (forall (w : @World Z unit) (n : nat) (rs : list Request),
        Forall (fun a => fst (fst a) = tt)
               (encode_calls (fst (run_from w n (serve rs sample_globals))))).
Proof.
  exact (requests_use_loaded_model world_ok sample_globals eq_refl).
Defined.

Lemma reply_dimension_is_probe_dimension_witness :
  emb_dimension fallback_abc_body = 384%Z
  /\ exists vecs,
       world_ok _ 0 (encode tt (filter usable (input abc_request)) (Some false))
         = Returned vecs
       /\ map embedding (data fallback_abc_body) = map tolist vecs.
Proof.
  exact (reply_dimension_is_probe_dimension world_probe_fails world_ok 0
           fallback_globals abc_request fallback_abc_body eq_refl eq_refl).
Defined.

Lemma embeddings_ignores_blank_strings_witness :
  run_from world_ok 0
    (embeddings
       (request_of_strings [lit "a"; lit ""; lit " b "; lit "   "; lit "c"]
          (Some false)) sample_globals)
  = run_from world_ok 0
      (embeddings (request_of_strings [lit "a"; lit " b "; lit "c"] (Some false))
         sample_globals)
  /\ encode_calls
       (fst (run_from world_ok 0
               (embeddings
                  (request_of_strings
                     [lit "a"; lit ""; lit " b "; lit "   "; lit "c"]
                     (Some false)) sample_globals)))
     = [(tt, [py_str (lit "a"); py_str (lit " b "); py_str (lit "c")],
         Some false)].
Proof.
  apply (embeddings_ignores_blank_strings world_ok 0 sample_globals
           [lit "a"; lit ""; lit " b "; lit "   "; lit "c"]
           [lit "a"; lit " b "; lit "c"] (Some false)).
  reflexivity.
Defined.


Example scenario_probe_failed_mismatch :
  snd (run world_probe_fails startup) = Serving fallback_globals
  /\ snd (snd (run world_ok (embeddings abc_request fallback_globals)))
     = Responds fallback_abc_body
  /\ map (fun item => List.length (embedding item)) (data fallback_abc_body)
     = [3; 3; 3].
Proof. repeat split. Qed.

Example scenario_mixed_sequence_calls :
  encode_calls
    (fst (run world_ok
            (serve [GET_health; POST_embeddings abc_request;
                    POST_embeddings blank_request; GET_root;
                    POST_embeddings abc_only_request] sample_globals)))
  = [(tt, input abc_only_request, Some false);
     (tt, input abc_only_request, Some false)].
Proof. reflexivity. Qed.
